(** * CobremsGenerator: configuration state of the coherent bremsstrahlung
      generator (HDGeant4, [src/CobremsGenerator.hh])

    The header declares the class, its data members and the inline bodies of
    the field setters and of [resetTargetOrientation].  This development
    embeds that state and those bodies and proves what they do to the state.

    A C++ [double] is an IEEE 754 binary64 number: it is modelled by Rocq's
    primitive [float], so that stores, literals ([0], [1]) and comparisons
    evaluate exactly as they do in the program. *)

From Stdlib Require Import ZArith Floats.PrimFloat.
From stdpp Require Import gmap strings.

Local Open Scope float_scope.

Abbreviation double := float.

(** ** Data model *)

(** [struct lattice_vector { double x; double y; double z; }] *)
Module lattice_vector.
Record t : Type := make { x : double; y : double; z : double }.

(** The default constructor [lattice_vector() : x(0), y(0), z(0)]. *)
Definition zero : t := make 0 0 0.

(** [operator=]: the three coordinates are copied one by one. *)
Definition assign (_dst src : t) : t := make (x src) (y src) (z src).
End lattice_vector.

(** [struct crystal_parameters_t]; [int nsites] is kept as an integer,
    [std::vector<lattice_vector>] as a list. *)
Module crystal_parameters_t.
Record t : Type := make {
  name : string;
  nsites : BinNums.Z;
  Z : double;
  A : double;                    (* amu *)
  density : double;              (* g/cm^3 *)
  lattice_constant : double;     (* m *)
  radiation_length : double;     (* m *)
  Debye_Waller_const : double;   (* 1/GeV^2 *)
  mosaic_spread : double;        (* rms radians *)
  betaFF : double;               (* 1/GeV^2 *)
  ucell_site : list lattice_vector.t;
  primaryHKL : lattice_vector.t
}.
End crystal_parameters_t.

(** A C array [T a[3]]: exactly three cells, addressed by the in-range
    indices 0, 1, 2. *)
Inductive index3 : Type := i0 | i1 | i2.

#[global] Instance index3_eq_dec : EqDecision index3.
Proof. solve_decision. Defined.

Record array3 (T : Type) : Type := Array3 { cell0 : T; cell1 : T; cell2 : T }.
Arguments Array3 {T} _ _ _.
Arguments cell0 {T} _.
Arguments cell1 {T} _.
Arguments cell2 {T} _.

Definition get3 {T : Type} (a : array3 T) (i : index3) : T :=
  match i with
  | i0 => cell0 a
  | i1 => cell1 a
  | i2 => cell2 a
  end.

Definition set3 {T : Type} (a : array3 T) (i : index3) (v : T) : array3 T :=
  match i with
  | i0 => Array3 v (cell1 a) (cell2 a)
  | i1 => Array3 (cell0 a) v (cell2 a)
  | i2 => Array3 (cell0 a) (cell1 a) v
  end.

(** [double m[3][3]]: an array of three rows. *)
Abbreviation matrix3 := (array3 (array3 double)).

(** [m[i][j]] read and [m[i][j] = v] store. *)
Definition mget (m : matrix3) (i j : index3) : double := get3 (get3 m i) j.

Definition mset (m : matrix3) (i j : index3) (v : double) : matrix3 :=
  set3 m i (set3 (get3 m i) j v).

(** The data members of [class CobremsGenerator], in declaration order. *)
Record CobremsGenerator : Type := {
  fTargetCrystal : crystal_parameters_t.t;
  fTargetThickness : double;
  (* orientation of the radiator with respect to the beam axis *)
  fTargetThetax : double;        (* the "small" angle *)
  fTargetThetay : double;        (* the "large" angle *)
  fTargetThetaz : double;
  fTargetRmatrix : matrix3;
  (* description of the beam at the radiator *)
  fBeamEnergy : double;          (* GeV *)
  fBeamErms : double;            (* GeV *)
  fBeamEmittance : double;       (* m radians *)
  fCollimatorSpotrms : double;   (* m *)
  fCollimatorDistance : double;  (* m *)
  fCollimatorDiameter : double;  (* m *)
  (* flags to select kind of flux to be computed *)
  fCollimatedFlux : bool;
  fPolarizedFlux : bool;
  (* statistical record from last sum over reciprocal lattice *)
  fQ2theta2 : list double;
  fQ2weight : list double
}.

(** ** Inline getters: plain reads of one member *)

Definition getBeamEnergy (s : CobremsGenerator) : double := fBeamEnergy s.
Definition getBeamErms (s : CobremsGenerator) : double := fBeamErms s.
Definition getBeamEmittance (s : CobremsGenerator) : double := fBeamEmittance s.
Definition getCollimatorSpotrms (s : CobremsGenerator) : double := fCollimatorSpotrms s.
Definition getCollimatorDistance (s : CobremsGenerator) : double := fCollimatorDistance s.
Definition getCollimatorDiameter (s : CobremsGenerator) : double := fCollimatorDiameter s.
Definition getTargetThickness (s : CobremsGenerator) : double := fTargetThickness s.
Definition getTargetCrystal (s : CobremsGenerator) : string :=
  crystal_parameters_t.name (fTargetCrystal s).
Definition getTargetThetax (s : CobremsGenerator) : double := fTargetThetax s.
Definition getTargetThetay (s : CobremsGenerator) : double := fTargetThetay s.
Definition getTargetThetaz (s : CobremsGenerator) : double := fTargetThetaz s.
Definition getCollimatedFlux (s : CobremsGenerator) : bool := fCollimatedFlux s.
Definition getPolarizedFlux (s : CobremsGenerator) : bool := fPolarizedFlux s.

(** ** Inline setters

    Each body is a single assignment to one member; [this] is threaded as
    the state [s] and the updated object is returned. *)

Definition setBeamEmittance (emit_m_r : double) (s : CobremsGenerator) : CobremsGenerator :=
  {| fTargetCrystal := fTargetCrystal s; fTargetThickness := fTargetThickness s;
     fTargetThetax := fTargetThetax s; fTargetThetay := fTargetThetay s;
     fTargetThetaz := fTargetThetaz s; fTargetRmatrix := fTargetRmatrix s;
     fBeamEnergy := fBeamEnergy s; fBeamErms := fBeamErms s;
     fBeamEmittance := emit_m_r;
     fCollimatorSpotrms := fCollimatorSpotrms s;
     fCollimatorDistance := fCollimatorDistance s;
     fCollimatorDiameter := fCollimatorDiameter s;
     fCollimatedFlux := fCollimatedFlux s; fPolarizedFlux := fPolarizedFlux s;
     fQ2theta2 := fQ2theta2 s; fQ2weight := fQ2weight s |}.

Definition setBeamEnergy (Ebeam_GeV : double) (s : CobremsGenerator) : CobremsGenerator :=
  {| fTargetCrystal := fTargetCrystal s; fTargetThickness := fTargetThickness s;
     fTargetThetax := fTargetThetax s; fTargetThetay := fTargetThetay s;
     fTargetThetaz := fTargetThetaz s; fTargetRmatrix := fTargetRmatrix s;
     fBeamEnergy := Ebeam_GeV;
     fBeamErms := fBeamErms s; fBeamEmittance := fBeamEmittance s;
     fCollimatorSpotrms := fCollimatorSpotrms s;
     fCollimatorDistance := fCollimatorDistance s;
     fCollimatorDiameter := fCollimatorDiameter s;
     fCollimatedFlux := fCollimatedFlux s; fPolarizedFlux := fPolarizedFlux s;
     fQ2theta2 := fQ2theta2 s; fQ2weight := fQ2weight s |}.

Definition setBeamErms (Erms_GeV : double) (s : CobremsGenerator) : CobremsGenerator :=
  {| fTargetCrystal := fTargetCrystal s; fTargetThickness := fTargetThickness s;
     fTargetThetax := fTargetThetax s; fTargetThetay := fTargetThetay s;
     fTargetThetaz := fTargetThetaz s; fTargetRmatrix := fTargetRmatrix s;
     fBeamEnergy := fBeamEnergy s;
     fBeamErms := Erms_GeV;
     fBeamEmittance := fBeamEmittance s;
     fCollimatorSpotrms := fCollimatorSpotrms s;
     fCollimatorDistance := fCollimatorDistance s;
     fCollimatorDiameter := fCollimatorDiameter s;
     fCollimatedFlux := fCollimatedFlux s; fPolarizedFlux := fPolarizedFlux s;
     fQ2theta2 := fQ2theta2 s; fQ2weight := fQ2weight s |}.

Definition setCollimatorSpotrms (spotrms_m : double) (s : CobremsGenerator) : CobremsGenerator :=
  {| fTargetCrystal := fTargetCrystal s; fTargetThickness := fTargetThickness s;
     fTargetThetax := fTargetThetax s; fTargetThetay := fTargetThetay s;
     fTargetThetaz := fTargetThetaz s; fTargetRmatrix := fTargetRmatrix s;
     fBeamEnergy := fBeamEnergy s; fBeamErms := fBeamErms s;
     fBeamEmittance := fBeamEmittance s;
     fCollimatorSpotrms := spotrms_m;
     fCollimatorDistance := fCollimatorDistance s;
     fCollimatorDiameter := fCollimatorDiameter s;
     fCollimatedFlux := fCollimatedFlux s; fPolarizedFlux := fPolarizedFlux s;
     fQ2theta2 := fQ2theta2 s; fQ2weight := fQ2weight s |}.

Definition setCollimatorDistance (distance_m : double) (s : CobremsGenerator) : CobremsGenerator :=
  {| fTargetCrystal := fTargetCrystal s; fTargetThickness := fTargetThickness s;
     fTargetThetax := fTargetThetax s; fTargetThetay := fTargetThetay s;
     fTargetThetaz := fTargetThetaz s; fTargetRmatrix := fTargetRmatrix s;
     fBeamEnergy := fBeamEnergy s; fBeamErms := fBeamErms s;
     fBeamEmittance := fBeamEmittance s;
     fCollimatorSpotrms := fCollimatorSpotrms s;
     fCollimatorDistance := distance_m;
     fCollimatorDiameter := fCollimatorDiameter s;
     fCollimatedFlux := fCollimatedFlux s; fPolarizedFlux := fPolarizedFlux s;
     fQ2theta2 := fQ2theta2 s; fQ2weight := fQ2weight s |}.

Definition setCollimatorDiameter (diameter_m : double) (s : CobremsGenerator) : CobremsGenerator :=
  {| fTargetCrystal := fTargetCrystal s; fTargetThickness := fTargetThickness s;
     fTargetThetax := fTargetThetax s; fTargetThetay := fTargetThetay s;
     fTargetThetaz := fTargetThetaz s; fTargetRmatrix := fTargetRmatrix s;
     fBeamEnergy := fBeamEnergy s; fBeamErms := fBeamErms s;
     fBeamEmittance := fBeamEmittance s;
     fCollimatorSpotrms := fCollimatorSpotrms s;
     fCollimatorDistance := fCollimatorDistance s;
     fCollimatorDiameter := diameter_m;
     fCollimatedFlux := fCollimatedFlux s; fPolarizedFlux := fPolarizedFlux s;
     fQ2theta2 := fQ2theta2 s; fQ2weight := fQ2weight s |}.

Definition setTargetThickness (thickness_m : double) (s : CobremsGenerator) : CobremsGenerator :=
  {| fTargetCrystal := fTargetCrystal s;
     fTargetThickness := thickness_m;
     fTargetThetax := fTargetThetax s; fTargetThetay := fTargetThetay s;
     fTargetThetaz := fTargetThetaz s; fTargetRmatrix := fTargetRmatrix s;
     fBeamEnergy := fBeamEnergy s; fBeamErms := fBeamErms s;
     fBeamEmittance := fBeamEmittance s;
     fCollimatorSpotrms := fCollimatorSpotrms s;
     fCollimatorDistance := fCollimatorDistance s;
     fCollimatorDiameter := fCollimatorDiameter s;
     fCollimatedFlux := fCollimatedFlux s; fPolarizedFlux := fPolarizedFlux s;
     fQ2theta2 := fQ2theta2 s; fQ2weight := fQ2weight s |}.

Definition setTargetThetax (thetax : double) (s : CobremsGenerator) : CobremsGenerator :=
  {| fTargetCrystal := fTargetCrystal s; fTargetThickness := fTargetThickness s;
     fTargetThetax := thetax;
     fTargetThetay := fTargetThetay s; fTargetThetaz := fTargetThetaz s;
     fTargetRmatrix := fTargetRmatrix s;
     fBeamEnergy := fBeamEnergy s; fBeamErms := fBeamErms s;
     fBeamEmittance := fBeamEmittance s;
     fCollimatorSpotrms := fCollimatorSpotrms s;
     fCollimatorDistance := fCollimatorDistance s;
     fCollimatorDiameter := fCollimatorDiameter s;
     fCollimatedFlux := fCollimatedFlux s; fPolarizedFlux := fPolarizedFlux s;
     fQ2theta2 := fQ2theta2 s; fQ2weight := fQ2weight s |}.

Definition setTargetThetay (thetay : double) (s : CobremsGenerator) : CobremsGenerator :=
  {| fTargetCrystal := fTargetCrystal s; fTargetThickness := fTargetThickness s;
     fTargetThetax := fTargetThetax s;
     fTargetThetay := thetay;
     fTargetThetaz := fTargetThetaz s;
     fTargetRmatrix := fTargetRmatrix s;
     fBeamEnergy := fBeamEnergy s; fBeamErms := fBeamErms s;
     fBeamEmittance := fBeamEmittance s;
     fCollimatorSpotrms := fCollimatorSpotrms s;
     fCollimatorDistance := fCollimatorDistance s;
     fCollimatorDiameter := fCollimatorDiameter s;
     fCollimatedFlux := fCollimatedFlux s; fPolarizedFlux := fPolarizedFlux s;
     fQ2theta2 := fQ2theta2 s; fQ2weight := fQ2weight s |}.

Definition setTargetThetaz (thetaz : double) (s : CobremsGenerator) : CobremsGenerator :=
  {| fTargetCrystal := fTargetCrystal s; fTargetThickness := fTargetThickness s;
     fTargetThetax := fTargetThetax s; fTargetThetay := fTargetThetay s;
     fTargetThetaz := thetaz;
     fTargetRmatrix := fTargetRmatrix s;
     fBeamEnergy := fBeamEnergy s; fBeamErms := fBeamErms s;
     fBeamEmittance := fBeamEmittance s;
     fCollimatorSpotrms := fCollimatorSpotrms s;
     fCollimatorDistance := fCollimatorDistance s;
     fCollimatorDiameter := fCollimatorDiameter s;
     fCollimatedFlux := fCollimatedFlux s; fPolarizedFlux := fPolarizedFlux s;
     fQ2theta2 := fQ2theta2 s; fQ2weight := fQ2weight s |}.

Definition setCollimatedFlux (flag : bool) (s : CobremsGenerator) : CobremsGenerator :=
  {| fTargetCrystal := fTargetCrystal s; fTargetThickness := fTargetThickness s;
     fTargetThetax := fTargetThetax s; fTargetThetay := fTargetThetay s;
     fTargetThetaz := fTargetThetaz s; fTargetRmatrix := fTargetRmatrix s;
     fBeamEnergy := fBeamEnergy s; fBeamErms := fBeamErms s;
     fBeamEmittance := fBeamEmittance s;
     fCollimatorSpotrms := fCollimatorSpotrms s;
     fCollimatorDistance := fCollimatorDistance s;
     fCollimatorDiameter := fCollimatorDiameter s;
     fCollimatedFlux := flag;
     fPolarizedFlux := fPolarizedFlux s;
     fQ2theta2 := fQ2theta2 s; fQ2weight := fQ2weight s |}.

Definition setPolarizedFlux (flag : bool) (s : CobremsGenerator) : CobremsGenerator :=
  {| fTargetCrystal := fTargetCrystal s; fTargetThickness := fTargetThickness s;
     fTargetThetax := fTargetThetax s; fTargetThetay := fTargetThetay s;
     fTargetThetaz := fTargetThetaz s; fTargetRmatrix := fTargetRmatrix s;
     fBeamEnergy := fBeamEnergy s; fBeamErms := fBeamErms s;
     fBeamEmittance := fBeamEmittance s;
     fCollimatorSpotrms := fCollimatorSpotrms s;
     fCollimatorDistance := fCollimatorDistance s;
     fCollimatorDiameter := fCollimatorDiameter s;
     fCollimatedFlux := fCollimatedFlux s;
     fPolarizedFlux := flag;
     fQ2theta2 := fQ2theta2 s; fQ2weight := fQ2weight s |}.

(** ** [resetTargetOrientation]

    The body is nine stores into [fTargetRmatrix], row by row.  [storeR]
    is one such store [fTargetRmatrix[i][j] = v]; the body is their
    sequence, in the order of the source. *)

Definition storeR (i j : index3) (v : double) (s : CobremsGenerator) : CobremsGenerator :=
  {| fTargetCrystal := fTargetCrystal s; fTargetThickness := fTargetThickness s;
     fTargetThetax := fTargetThetax s; fTargetThetay := fTargetThetay s;
     fTargetThetaz := fTargetThetaz s;
     fTargetRmatrix := mset (fTargetRmatrix s) i j v;
     fBeamEnergy := fBeamEnergy s; fBeamErms := fBeamErms s;
     fBeamEmittance := fBeamEmittance s;
     fCollimatorSpotrms := fCollimatorSpotrms s;
     fCollimatorDistance := fCollimatorDistance s;
     fCollimatorDiameter := fCollimatorDiameter s;
     fCollimatedFlux := fCollimatedFlux s; fPolarizedFlux := fPolarizedFlux s;
     fQ2theta2 := fQ2theta2 s; fQ2weight := fQ2weight s |}.

Definition resetTargetOrientation (s : CobremsGenerator) : CobremsGenerator :=
  let s := storeR i0 i0 1 s in
  let s := storeR i0 i1 0 s in
  let s := storeR i0 i2 0 s in
  let s := storeR i1 i0 0 s in
  let s := storeR i1 i1 1 s in
  let s := storeR i1 i2 0 s in
  let s := storeR i2 i0 0 s in
  let s := storeR i2 i1 0 s in
  let s := storeR i2 i2 1 s in
  s.

(** ** The data members, enumerated

    [member] names the sixteen data members and [read] projects one of
    them.  "Writes only member [m]" is then: every member other than [m]
    reads the same before and after. *)

Inductive member : Type :=
| m_fTargetCrystal | m_fTargetThickness
| m_fTargetThetax | m_fTargetThetay | m_fTargetThetaz | m_fTargetRmatrix
| m_fBeamEnergy | m_fBeamErms | m_fBeamEmittance
| m_fCollimatorSpotrms | m_fCollimatorDistance | m_fCollimatorDiameter
| m_fCollimatedFlux | m_fPolarizedFlux
| m_fQ2theta2 | m_fQ2weight.

#[global] Instance member_eq_dec : EqDecision member.
Proof. solve_decision. Defined.

Definition member_type (m : member) : Type :=
  match m with
  | m_fTargetCrystal => crystal_parameters_t.t
  | m_fTargetRmatrix => matrix3
  | m_fCollimatedFlux | m_fPolarizedFlux => bool
  | m_fQ2theta2 | m_fQ2weight => list double
  | _ => double
  end.

Definition read (m : member) (s : CobremsGenerator) : member_type m :=
  match m with
  | m_fTargetCrystal => fTargetCrystal s
  | m_fTargetThickness => fTargetThickness s
  | m_fTargetThetax => fTargetThetax s
  | m_fTargetThetay => fTargetThetay s
  | m_fTargetThetaz => fTargetThetaz s
  | m_fTargetRmatrix => fTargetRmatrix s
  | m_fBeamEnergy => fBeamEnergy s
  | m_fBeamErms => fBeamErms s
  | m_fBeamEmittance => fBeamEmittance s
  | m_fCollimatorSpotrms => fCollimatorSpotrms s
  | m_fCollimatorDistance => fCollimatorDistance s
  | m_fCollimatorDiameter => fCollimatorDiameter s
  | m_fCollimatedFlux => fCollimatedFlux s
  | m_fPolarizedFlux => fPolarizedFlux s
  | m_fQ2theta2 => fQ2theta2 s
  | m_fQ2weight => fQ2weight s
  end.

(** The three stored angles, as one observation. *)
Definition stored_angles (s : CobremsGenerator) : double * double * double :=
  (fTargetThetax s, fTargetThetay s, fTargetThetaz s).

(** ** Orthonormality of a 3x3 matrix of doubles

    Rows and columns are unit vectors, pairwise orthogonal, with the
    products and sums evaluated in binary64 and compared by [==]. *)

Definition identity3 : matrix3 :=
  Array3 (Array3 1 0 0) (Array3 0 1 0) (Array3 0 0 1).

Definition dot3 (u v : array3 double) : double :=
  cell0 u * cell0 v + cell1 u * cell1 v + cell2 u * cell2 v.

Definition row (m : matrix3) (i : index3) : array3 double := get3 m i.

Definition column (m : matrix3) (j : index3) : array3 double :=
  Array3 (mget m i0 j) (mget m i1 j) (mget m i2 j).

Definition index3_eqb (i j : index3) : bool :=
  match i, j with
  | i0, i0 | i1, i1 | i2, i2 => true
  | _, _ => false
  end.

Definition kronecker (i j : index3) : double := if index3_eqb i j then 1 else 0.

Definition all_index3 (p : index3 -> bool) : bool := p i0 && p i1 && p i2.

Definition orthonormal (m : matrix3) : bool :=
  all_index3 (fun i => all_index3 (fun j =>
    (dot3 (row m i) (row m j) =? kronecker i j) &&
    (dot3 (column m i) (column m j) =? kronecker i j))).

(** Entrywise [==] of two matrices. *)
Definition matrix3_eqb (a b : matrix3) : bool :=
  all_index3 (fun i => all_index3 (fun j => mget a i j =? mget b i j)).

(** ** Calls that may fail

    The error conditions the specification names, and the outcome of a call
    to a [void] member function: how it ended, and the object afterwards. *)

Inductive condition : Type := InvalidParameter | UnknownCrystal | OutOfRangeQuery.

Inductive outcome (T : Type) : Type :=
| Returned (v : T)
| Failed (c : condition).
Arguments Returned {T} v.
Arguments Failed {T} c.

Definition is_failure {T : Type} (o : outcome T) : bool :=
  match o with
  | Returned _ => false
  | Failed _ => true
  end.

(** A call to one of the inline bodies above.  None of them contains a
    [throw], an [exit] or a call to another function: the assignments run
    and the call returns. *)
Definition call (body : CobremsGenerator -> CobremsGenerator)
    (s : CobremsGenerator) : outcome unit * CobremsGenerator :=
  (Returned tt, body s).

(** The assignment [fTargetCrystal = c]. *)
Definition storeCrystal (c : crystal_parameters_t.t) (s : CobremsGenerator) : CobremsGenerator :=
  {| fTargetCrystal := c;
     fTargetThickness := fTargetThickness s;
     fTargetThetax := fTargetThetax s; fTargetThetay := fTargetThetay s;
     fTargetThetaz := fTargetThetaz s; fTargetRmatrix := fTargetRmatrix s;
     fBeamEnergy := fBeamEnergy s; fBeamErms := fBeamErms s;
     fBeamEmittance := fBeamEmittance s;
     fCollimatorSpotrms := fCollimatorSpotrms s;
     fCollimatorDistance := fCollimatorDistance s;
     fCollimatorDiameter := fCollimatorDiameter s;
     fCollimatedFlux := fCollimatedFlux s; fPolarizedFlux := fPolarizedFlux s;
     fQ2theta2 := fQ2theta2 s; fQ2weight := fQ2weight s |}.

(** Modelled from the spec: the body of [setTargetCrystal(std::string)] and
    the table of supported crystals, both absent from the header, which only
    declares the function.  Specification, sections 3 and 4.1: the name is
    looked up in a fixed table of supported crystals; a name found there
    populates the crystal descriptor from the table; a name absent from it
    fails with [UnknownCrystal], leaving the prior configuration unchanged.
    The table is the argument [supported]. *)
Definition setTargetCrystal (supported : gmap string crystal_parameters_t.t)
    (crystal : string) (s : CobremsGenerator) : outcome unit * CobremsGenerator :=
  match supported !! crystal with
  | Some c => (Returned tt, storeCrystal c s)
  | None => (Failed UnknownCrystal, s)
  end.

(** Modelled from the spec: the check made by the constructor
    [CobremsGenerator(double Emax_GeV, double Epeak_GeV)], whose body is
    absent from the header.  Specification, section 6: both arguments must
    be positive and [Epeak < Emax], else construction fails with
    [InvalidParameter]. *)
Definition valid_construction (Emax_GeV Epeak_GeV : double) : bool :=
  (0 <? Emax_GeV) && (0 <? Epeak_GeV) && (Epeak_GeV <? Emax_GeV).

(** Modelled from the spec: the constructor itself.  The specification does
    not describe the object built from valid arguments; it is the argument
    [built]. *)
Definition construct (built : double -> double -> CobremsGenerator)
    (Emax_GeV Epeak_GeV : double) : outcome CobremsGenerator :=
  if valid_construction Emax_GeV Epeak_GeV
  then Returned (built Emax_GeV Epeak_GeV)
  else Failed InvalidParameter.

(** "The call wrote only member [m]": every other member reads the same in
    the object before ([s]) and after ([s']). *)
Definition writes_only (m : member) (s s' : CobremsGenerator) : Prop :=
  forall m' : member, m' <> m -> read m' s' = read m' s.

(** ** Configurations used in the examples *)

(** A descriptor for the one crystal the header names, diamond (eight sites
    in the cubic unit cell, primary reciprocal-lattice direction (2,2,0)). *)
Definition example_diamond : crystal_parameters_t.t :=
  {| crystal_parameters_t.name := "diamond";
     crystal_parameters_t.nsites := 8;
     crystal_parameters_t.Z := 6;
     crystal_parameters_t.A := 12;
     crystal_parameters_t.density := 3.5;
     crystal_parameters_t.lattice_constant := 0x1.8p-32;
     crystal_parameters_t.radiation_length := 0.125;
     crystal_parameters_t.Debye_Waller_const := 0;
     crystal_parameters_t.mosaic_spread := 0;
     crystal_parameters_t.betaFF := 0;
     crystal_parameters_t.ucell_site :=
       [ lattice_vector.make 0 0 0;
         lattice_vector.make 0 0.5 0.5;
         lattice_vector.make 0.5 0 0.5;
         lattice_vector.make 0.5 0.5 0;
         lattice_vector.make 0.25 0.25 0.25;
         lattice_vector.make 0.25 0.75 0.75;
         lattice_vector.make 0.75 0.25 0.75;
         lattice_vector.make 0.75 0.75 0.25 ];
     crystal_parameters_t.primaryHKL := lattice_vector.make 2 2 0 |}.

(** The table of supported crystals used in the examples. *)
Definition example_table : gmap string crystal_parameters_t.t :=
  {[ "diamond" := example_diamond ]}.

(** A 12 GeV beam on a diamond radiator, collimator at 76 m; angles zero and
    the matrix the identity. *)
Definition example_config : CobremsGenerator :=
  {| fTargetCrystal := example_diamond;
     fTargetThickness := 0x1p-16;
     fTargetThetax := 0; fTargetThetay := 0; fTargetThetaz := 0;
     fTargetRmatrix := identity3;
     fBeamEnergy := 12; fBeamErms := 0x1p-7; fBeamEmittance := 0x1p-20;
     fCollimatorSpotrms := 0x1p-11;
     fCollimatorDistance := 76;
     fCollimatorDiameter := 0x1p-8;
     fCollimatedFlux := true; fPolarizedFlux := false;
     fQ2theta2 := []; fQ2weight := [] |}.

(** A quarter turn about the beam axis,
    [[0,-1,0],[1,0,0],[0,0,1]]: an orthonormal matrix other than the
    identity. *)
Definition quarter_turn : matrix3 :=
  Array3 (Array3 0 (-1) 0) (Array3 1 0 0) (Array3 0 0 1).

(** [example_config] with the matrix a quarter turn, the angles still zero. *)
Definition turned_config : CobremsGenerator :=
  storeR i1 i1 0 (storeR i1 i0 1 (storeR i0 i1 (-1) (storeR i0 i0 0 example_config))).

(** [example_config] with [fTargetRmatrix[0][0] = 2]: not orthonormal. *)
Definition stretched_config : CobremsGenerator := storeR i0 i0 2 example_config.

(** [example_config] after the three angle setters. *)
Definition tilted_config : CobremsGenerator :=
  setTargetThetaz 0.75 (setTargetThetay 0.5 (setTargetThetax 0.25 example_config)).

(** "The setter stores its argument unchecked": for every argument and every
    object the call returns, and the getter then reads the argument back. *)
Definition stores_unchecked (setter : double -> CobremsGenerator -> CobremsGenerator)
    (getter : CobremsGenerator -> double) : Prop :=
  forall (v : double) (s : CobremsGenerator),
    fst (call (setter v) s) = Returned tt /\
    getter (snd (call (setter v) s)) = v.

(** ** The inline mutators as one interface

    The thirteen member functions whose bodies the header gives and that
    change the object: twelve setters and [resetTargetOrientation].  An
    [operation] is one call with its argument, [perform] runs it, and
    [perform_all] runs a sequence of calls, the head of the list first. *)

Inductive operation : Type :=
| SetBeamEnergy (Ebeam_GeV : double)
| SetBeamErms (Erms_GeV : double)
| SetBeamEmittance (emit_m_r : double)
| SetCollimatorSpotrms (spotrms_m : double)
| SetCollimatorDistance (distance_m : double)
| SetCollimatorDiameter (diameter_m : double)
| SetTargetThickness (thickness_m : double)
| SetTargetThetax (thetax : double)
| SetTargetThetay (thetay : double)
| SetTargetThetaz (thetaz : double)
| SetCollimatedFlux (flag : bool)
| SetPolarizedFlux (flag : bool)
| ResetTargetOrientation.

Definition perform (o : operation) (s : CobremsGenerator) : CobremsGenerator :=
  match o with
  | SetBeamEnergy Ebeam_GeV => setBeamEnergy Ebeam_GeV s
  | SetBeamErms Erms_GeV => setBeamErms Erms_GeV s
  | SetBeamEmittance emit_m_r => setBeamEmittance emit_m_r s
  | SetCollimatorSpotrms spotrms_m => setCollimatorSpotrms spotrms_m s
  | SetCollimatorDistance distance_m => setCollimatorDistance distance_m s
  | SetCollimatorDiameter diameter_m => setCollimatorDiameter diameter_m s
  | SetTargetThickness thickness_m => setTargetThickness thickness_m s
  | SetTargetThetax thetax => setTargetThetax thetax s
  | SetTargetThetay thetay => setTargetThetay thetay s
  | SetTargetThetaz thetaz => setTargetThetaz thetaz s
  | SetCollimatedFlux flag => setCollimatedFlux flag s
  | SetPolarizedFlux flag => setPolarizedFlux flag s
  | ResetTargetOrientation => resetTargetOrientation s
  end.

Fixpoint perform_all (ops : list operation) (s : CobremsGenerator) : CobremsGenerator :=
  match ops with
  | [] => s
  | o :: ops' => perform_all ops' (perform o s)
  end.

(** The member an operation assigns to. *)
Definition target (o : operation) : member :=
  match o with
  | SetBeamEnergy _ => m_fBeamEnergy
  | SetBeamErms _ => m_fBeamErms
  | SetBeamEmittance _ => m_fBeamEmittance
  | SetCollimatorSpotrms _ => m_fCollimatorSpotrms
  | SetCollimatorDistance _ => m_fCollimatorDistance
  | SetCollimatorDiameter _ => m_fCollimatorDiameter
  | SetTargetThickness _ => m_fTargetThickness
  | SetTargetThetax _ => m_fTargetThetax
  | SetTargetThetay _ => m_fTargetThetay
  | SetTargetThetaz _ => m_fTargetThetaz
  | SetCollimatedFlux _ => m_fCollimatedFlux
  | SetPolarizedFlux _ => m_fPolarizedFlux
  | ResetTargetOrientation => m_fTargetRmatrix
  end.

(** The value an operation leaves in member [m], when it assigns to [m]:
    the argument for a setter, the identity matrix for the reset. *)
Definition written (o : operation) (m : member) : option (member_type m) :=
  match o, m return option (member_type m) with
  | SetBeamEnergy v, m_fBeamEnergy => Some v
  | SetBeamErms v, m_fBeamErms => Some v
  | SetBeamEmittance v, m_fBeamEmittance => Some v
  | SetCollimatorSpotrms v, m_fCollimatorSpotrms => Some v
  | SetCollimatorDistance v, m_fCollimatorDistance => Some v
  | SetCollimatorDiameter v, m_fCollimatorDiameter => Some v
  | SetTargetThickness v, m_fTargetThickness => Some v
  | SetTargetThetax v, m_fTargetThetax => Some v
  | SetTargetThetay v, m_fTargetThetay => Some v
  | SetTargetThetaz v, m_fTargetThetaz => Some v
  | SetCollimatedFlux b, m_fCollimatedFlux => Some b
  | SetPolarizedFlux b, m_fPolarizedFlux => Some b
  | ResetTargetOrientation, m_fTargetRmatrix => Some identity3
  | _, _ => None
  end.

(** What member [m] holds after the calls [ops], from what it held before:
    each call that assigns to [m] replaces the value. *)
Fixpoint last_written (m : member) (ops : list operation) (before : member_type m)
    : member_type m :=
  match ops with
  | [] => before
  | o :: ops' => last_written m ops' (default before (written o m))
  end.

Definition is_reset (o : operation) : bool :=
  match o with
  | ResetTargetOrientation => true
  | _ => false
  end.

(** * The main program ([src/hdgeant4.cc])

    [main] reads its options with [getopt], reads [control.in], decides the
    run number, initialises the simulation and starts a user interface.
    What is embedded here is what [main] itself decides: the option loop,
    the run number, the exits and the choice of the user interface.  The
    calls into libc and into the simulation framework are inputs:
    - the successive returns of [getopt(argc, argv, "vt:r:")] before it
      returns -1, each with the [optarg] it sets;
    - [atoi];
    - whether [opts.ReadControl_in("control.in")] succeeded, and
      [opts.Find(key, runno_opts)], which reports whether the key was found
      and may fill the map it is given;
    - whether the program was built with [G4VIS_USE];
    - [argc] and [argv] as [main] reads them after the option loop.
    The other calls ([DApplication], the run manager, the geometry, physics
    and action initialisations, the sessions) are taken to return and to
    leave the variables of [main] alone.  The [int] variables hold small
    counts and the values of [atoi]; they are kept as integers. *)

From Stdlib Require Import Ascii.

Module hdgeant4.

(** The global [run_number] and the locals of [main] that the option loop
    assigns. *)
Record variables : Type := {
  use_visualization : Z;
  worker_threads : Z;
  run_number : Z;
  argi : Z
}.

(** [int run_number = 0;] and the initialisers at the head of [main]. *)
Definition at_entry : variables :=
  {| use_visualization := 0; worker_threads := 1; run_number := 0; argi := 1 |}.

(** One return of [getopt] other than -1: the character [c] and [optarg]. *)
Record getopt_return : Type := { c : ascii; optarg : string }.

(** How the program was started, once the options are read. *)
Inductive session : Type :=
| Batch (fileName : string)          (* /control/execute fileName *)
| InteractiveWithVisualization       (* /control/execute vis.mac, then a session *)
| InteractiveWithoutVisualization.   (* a terminal session *)

(** How [main] ends: [exit(status)], or [return 0] after the session, with
    the values [run_number] and [worker_threads] had for the run
    ([worker_threads] is passed on in a [G4MULTITHREADED] build). *)
Inductive result : Type :=
| Exited (status : Z)
| Finished (run_number : Z) (worker_threads : Z) (ui : session).

Section Main.

Variable atoi : string -> Z.
Variable Find : string -> gmap Z Z -> bool * gmap Z Z.
Variable G4VIS_USE : bool.

(** The body of the [while] loop for one return of [getopt]; [None] is the
    call of [usage()], which ends the program with [exit(9)]. *)
Definition option_body (st : variables) (r : getopt_return) : option variables :=
  if Ascii.eqb (c r) "v"%char then
    Some {| use_visualization := 1;
            worker_threads := worker_threads st;
            run_number := run_number st;
            argi := (argi st + 1)%Z |}
  else if Ascii.eqb (c r) "t"%char then
    Some {| use_visualization := use_visualization st;
            worker_threads := atoi (optarg r);
            run_number := run_number st;
            argi := (argi st + 2)%Z |}
  else if Ascii.eqb (c r) "r"%char then
    Some {| use_visualization := use_visualization st;
            worker_threads := worker_threads st;
            run_number := atoi (optarg r);
            argi := (argi st + 2)%Z |}
  else None.

(** [while ((c = getopt(...)) != -1) { ... }] over the returns of [getopt]. *)
Fixpoint option_loop (st : variables) (returns : list getopt_return) : option variables :=
  match returns with
  | [] => Some st
  | r :: returns' =>
      match option_body st r with
      | Some st' => option_loop st' returns'
      | None => None
      end
  end.

(** [runno_opts[1]] on a [std::map<int,int>]: a missing key reads as 0. *)
Definition at_key_1 (runno_opts : gmap Z Z) : Z := default 0%Z (runno_opts !! 1%Z).

(** The [if (run_number == 0) { ... } else { ... }] after [control.in] is
    read.  With [run_number] zero, [RUNNO] is looked up and, only when it is
    not found, [RUNG]; when one is found [run_number = runno_opts[1]].
    Otherwise the warning is printed and [run_number = 9000]. *)
Definition choose_run_number (run_number : Z) : Z :=
  if (run_number =? 0)%Z then
    let runno_opts : gmap Z Z := ∅ in
    let (found_RUNNO, runno_opts) := Find "RUNNO" runno_opts in
    if found_RUNNO then at_key_1 runno_opts
    else
      let (found_RUNG, runno_opts) := Find "RUNG" runno_opts in
      if found_RUNG then at_key_1 runno_opts else run_number
  else 9000%Z.

(** The user interface: [if (argc > argi)] batch mode on [argv[argi]], [else
    if (visManager)] interactive with visualization, [else] interactive
    without.  [argc] is the length of [argv]; the guard keeps [argv[argi]]
    in range. *)
Definition start_ui (argv : list string) (argi : Z) (visManager : bool) : session :=
  if (Z.of_nat (length argv) >? argi)%Z then
    Batch (default "" (argv !! Z.to_nat argi))
  else if visManager then InteractiveWithVisualization
  else InteractiveWithoutVisualization.

Definition main (returns : list getopt_return) (control_in_read : bool)
    (argv : list string) : result :=
  match option_loop at_entry returns with
  | None => Exited 9
  | Some st =>
      if negb control_in_read then Exited 3
      else
        let run_number := choose_run_number (run_number st) in
        if (use_visualization st =? 0)%Z then
          Finished run_number (worker_threads st) (start_ui argv (argi st) false)
        else if G4VIS_USE then
          Finished run_number (worker_threads st) (start_ui argv (argi st) true)
        else Exited 1
  end.

End Main.

(** ** What the option loop computes, read off the list of returns *)

Definition recognised (r : getopt_return) : bool :=
  Ascii.eqb (c r) "v"%char || Ascii.eqb (c r) "t"%char || Ascii.eqb (c r) "r"%char.

Definition is_option (letter : ascii) (r : getopt_return) : bool :=
  Ascii.eqb (c r) letter.

(** How many returns carry the option [letter]. *)
Definition count_option (letter : ascii) (returns : list getopt_return) : Z :=
  Z.of_nat (length (filter (fun r => is_option letter r = true) returns)).

(** The [optarg] of the last return that carries the option [letter]. *)
Definition last_optarg (letter : ascii) (returns : list getopt_return) : option string :=
  optarg <$> last (filter (fun r => is_option letter r = true) returns).

(** The position in [argv] that [main] takes for the batch file: 1, plus 1
    for each [-v], plus 2 for each [-t] and each [-r]. *)
Definition batch_index (returns : list getopt_return) : Z :=
  (1 + count_option "v" returns
   + 2 * (count_option "t" returns + count_option "r" returns))%Z.

(** An [atoi] for the examples: the number written by a string of decimal
    digits, reading stops at the first other character. *)
Definition digit_value (a : ascii) : option Z :=
  let n := Ascii.nat_of_ascii a in
  if (48 <=? n)%nat && (n <=? 57)%nat then Some (Z.of_nat (n - 48)) else None.

Fixpoint decimal (acc : Z) (s : string) : Z :=
  match s with
  | EmptyString => acc
  | String a s' =>
      match digit_value a with
      | Some d => decimal (10 * acc + d)%Z s'
      | None => acc
      end
  end.

Definition example_atoi (s : string) : Z := decimal 0 s.

(** A [Find] for the examples: [RUNNO] is present with value 30000 under
    key 1, nothing else is. *)
Definition example_Find (key : string) (runno_opts : gmap Z Z) : bool * gmap Z Z :=
  if String.eqb key "RUNNO" then (true, <[1%Z := 30000%Z]> runno_opts)
  else (false, runno_opts).

(** [hdgeant4 -v -r 42 -t 4 run.mac]: the returns of [getopt] and [argv]. *)
Definition example_returns : list getopt_return :=
  [ {| c := "v"; optarg := "" |};
    {| c := "r"; optarg := "42" |};
    {| c := "t"; optarg := "4" |} ].

Definition example_argv : list string :=
  [ "hdgeant4"; "-v"; "-r"; "42"; "-t"; "4"; "run.mac" ]%string.

(** [hdgeant4 -t 2]: no run number on the command line, no batch file. *)
Definition example_returns_t : list getopt_return := [ {| c := "t"; optarg := "2" |} ].

Definition example_argv_t : list string := [ "hdgeant4"; "-t"; "2" ]%string.

End hdgeant4.

(** ** Proof steps shared by the setters *)

(** Solves [writes_only m s (f s)] for a body [f] that rebuilds the record
    from the members of [s]: case analysis on the member read. *)
Ltac frame_by_cases :=
  let m' := fresh "m'" in
  let Hm' := fresh "Hm'" in
  intros m' Hm'; destruct m'; try reflexivity; contradiction.

(** Solves [stores_unchecked setter getter] for an inline setter: the call
    returns, and the getter reads the member the setter has just written. *)
Ltac setter_stores :=
  let v := fresh "v" in
  let s := fresh "s" in
  intros v s; split; reflexivity.

(** * Properties *)

(** ** Arrays and matrices *)

Lemma get3_set3_same {T : Type} (a : array3 T) (i : index3) (v : T) :
  get3 (set3 a i v) i = v.
Proof. destruct i; reflexivity. Qed.

Lemma get3_set3_other {T : Type} (a : array3 T) (i j : index3) (v : T) :
  i <> j -> get3 (set3 a i v) j = get3 a j.
Proof. destruct i, j; intros Hij; try reflexivity; contradiction. Qed.

Lemma array3_ext {T : Type} (a b : array3 T) :
  (forall i, get3 a i = get3 b i) -> a = b.
Proof.
  intros H. destruct a as [a0 a1 a2], b as [b0 b1 b2].
  pose proof (H i0) as H0. pose proof (H i1) as H1. pose proof (H i2) as H2.
  simpl in H0, H1, H2. congruence.
Qed.

Lemma mget_mset_same (m : matrix3) (i j : index3) (v : double) :
  mget (mset m i j v) i j = v.
Proof. unfold mget, mset. now rewrite !get3_set3_same. Qed.

Lemma mget_mset_other_row (m : matrix3) (i j i' j' : index3) (v : double) :
  i <> i' -> mget (mset m i j v) i' j' = mget m i' j'.
Proof. intros Hi. unfold mget, mset. now rewrite get3_set3_other. Qed.

Lemma mget_mset_other_column (m : matrix3) (i j j' : index3) (v : double) :
  j <> j' -> mget (mset m i j v) i j' = mget m i j'.
Proof.
  intros Hj. unfold mget, mset.
  rewrite get3_set3_same. now rewrite get3_set3_other.
Qed.

Lemma matrix3_ext (a b : matrix3) :
  (forall i j, mget a i j = mget b i j) -> a = b.
Proof.
  intros H. apply array3_ext. intros i. apply array3_ext. intros j. apply H.
Qed.

(** The identity matrix is orthonormal: each of the eighteen dot products
    evaluates, in binary64, to exactly 1 or 0. *)
Lemma orthonormal_identity3 : orthonormal identity3 = true.
Proof. vm_compute. reflexivity. Qed.

Lemma mget_identity3 (i j : index3) : mget identity3 i j = kronecker i j.
Proof. destruct i, j; reflexivity. Qed.

(** Two doubles that [==] tells apart are different. *)
Lemma eqb_false_neq (a b : double) : (a =? a) = true -> (a =? b) = false -> a <> b.
Proof. intros Ha Hab E. rewrite <- E in Hab. congruence. Qed.

(** Two matrices that differ in an entry under [==] are different. *)
Lemma matrix3_eqb_false_neq (a b : matrix3) :
  matrix3_eqb a a = true -> matrix3_eqb a b = false -> a <> b.
Proof. intros Ha Hab E. rewrite <- E in Hab. congruence. Qed.

(** ** The members are all there is to an object *)

Lemma read_ext (s s' : CobremsGenerator) :
  (forall m, read m s' = read m s) -> s' = s.
Proof.
  intros H. destruct s, s'.
  pose proof (H m_fTargetCrystal). pose proof (H m_fTargetThickness).
  pose proof (H m_fTargetThetax). pose proof (H m_fTargetThetay).
  pose proof (H m_fTargetThetaz). pose proof (H m_fTargetRmatrix).
  pose proof (H m_fBeamEnergy). pose proof (H m_fBeamErms).
  pose proof (H m_fBeamEmittance). pose proof (H m_fCollimatorSpotrms).
  pose proof (H m_fCollimatorDistance). pose proof (H m_fCollimatorDiameter).
  pose proof (H m_fCollimatedFlux). pose proof (H m_fPolarizedFlux).
  pose proof (H m_fQ2theta2). pose proof (H m_fQ2weight).
  simpl in *. subst. reflexivity.
Qed.

Lemma writes_only_refl (m : member) (s : CobremsGenerator) : writes_only m s s.
Proof. intros m' _. reflexivity. Qed.

Lemma writes_only_trans (m : member) (s1 s2 s3 : CobremsGenerator) :
  writes_only m s1 s2 -> writes_only m s2 s3 -> writes_only m s1 s3.
Proof.
  intros H12 H23 m' Hm'. rewrite (H23 m' Hm'). apply (H12 m' Hm').
Qed.

(** ** One store into the matrix *)

Lemma storeR_writes_only (i j : index3) (v : double) (s : CobremsGenerator) :
  writes_only m_fTargetRmatrix s (storeR i j v s).
Proof. frame_by_cases. Qed.

Lemma storeR_matrix (i j : index3) (v : double) (s : CobremsGenerator) :
  fTargetRmatrix (storeR i j v s) = mset (fTargetRmatrix s) i j v.
Proof. reflexivity. Qed.

(** ** The angle setters *)

Lemma setTargetThetax_writes_only (thetax : double) (s : CobremsGenerator) :
  writes_only m_fTargetThetax s (setTargetThetax thetax s).
Proof. frame_by_cases. Qed.

Lemma setTargetThetay_writes_only (thetay : double) (s : CobremsGenerator) :
  writes_only m_fTargetThetay s (setTargetThetay thetay s).
Proof. frame_by_cases. Qed.

Lemma setTargetThetaz_writes_only (thetaz : double) (s : CobremsGenerator) :
  writes_only m_fTargetThetaz s (setTargetThetaz thetaz s).
Proof. frame_by_cases. Qed.

(** ** The other inline setters: each writes the one member it names *)

Lemma setBeamEnergy_writes_only (Ebeam_GeV : double) (s : CobremsGenerator) :
  writes_only m_fBeamEnergy s (setBeamEnergy Ebeam_GeV s).
Proof. frame_by_cases. Qed.

Lemma setBeamErms_writes_only (Erms_GeV : double) (s : CobremsGenerator) :
  writes_only m_fBeamErms s (setBeamErms Erms_GeV s).
Proof. frame_by_cases. Qed.

Lemma setBeamEmittance_writes_only (emit_m_r : double) (s : CobremsGenerator) :
  writes_only m_fBeamEmittance s (setBeamEmittance emit_m_r s).
Proof. frame_by_cases. Qed.

Lemma setCollimatorSpotrms_writes_only (spotrms_m : double) (s : CobremsGenerator) :
  writes_only m_fCollimatorSpotrms s (setCollimatorSpotrms spotrms_m s).
Proof. frame_by_cases. Qed.

Lemma setCollimatorDistance_writes_only (distance_m : double) (s : CobremsGenerator) :
  writes_only m_fCollimatorDistance s (setCollimatorDistance distance_m s).
Proof. frame_by_cases. Qed.

Lemma setCollimatorDiameter_writes_only (diameter_m : double) (s : CobremsGenerator) :
  writes_only m_fCollimatorDiameter s (setCollimatorDiameter diameter_m s).
Proof. frame_by_cases. Qed.

Lemma setTargetThickness_writes_only (thickness_m : double) (s : CobremsGenerator) :
  writes_only m_fTargetThickness s (setTargetThickness thickness_m s).
Proof. frame_by_cases. Qed.

Lemma setCollimatedFlux_writes_only (flag : bool) (s : CobremsGenerator) :
  writes_only m_fCollimatedFlux s (setCollimatedFlux flag s).
Proof. frame_by_cases. Qed.

Lemma setPolarizedFlux_writes_only (flag : bool) (s : CobremsGenerator) :
  writes_only m_fPolarizedFlux s (setPolarizedFlux flag s).
Proof. frame_by_cases. Qed.

(** Two setters of different members commute. *)
Lemma setTargetThetax_setTargetThetay_commute (thetax thetay : double) (s : CobremsGenerator) :
  setTargetThetax thetax (setTargetThetay thetay s)
  = setTargetThetay thetay (setTargetThetax thetax s).
Proof. apply read_ext. intros m. destruct m; reflexivity. Qed.

(** An angle setter and the reset commute: neither reads or writes what the
    other writes. *)
Lemma setTargetThetax_resetTargetOrientation_commute (thetax : double) (s : CobremsGenerator) :
  setTargetThetax thetax (resetTargetOrientation s)
  = resetTargetOrientation (setTargetThetax thetax s).
Proof. apply read_ext. intros m. destruct m; reflexivity. Qed.

(** ** [resetTargetOrientation] *)

(** Nine stores into the matrix, each of which writes only the matrix. *)
Lemma resetTargetOrientation_writes_only (s : CobremsGenerator) :
  writes_only m_fTargetRmatrix s (resetTargetOrientation s).
Proof.
  unfold resetTargetOrientation.
  repeat (eapply writes_only_trans; [ | apply storeR_writes_only ]).
  apply writes_only_refl.
Qed.

(** After the nine stores every entry holds the value last stored in it. *)
Lemma resetTargetOrientation_entries (s : CobremsGenerator) (i j : index3) :
  mget (fTargetRmatrix (resetTargetOrientation s)) i j = kronecker i j.
Proof.
  unfold resetTargetOrientation. rewrite !storeR_matrix.
  destruct i, j; reflexivity.
Qed.

Lemma resetTargetOrientation_matrix (s : CobremsGenerator) :
  fTargetRmatrix (resetTargetOrientation s) = identity3.
Proof.
  apply matrix3_ext. intros i j.
  rewrite resetTargetOrientation_entries. symmetry. apply mget_identity3.
Qed.

Lemma resetTargetOrientation_angles (s : CobremsGenerator) :
  stored_angles (resetTargetOrientation s) = stored_angles s.
Proof.
  pose proof (resetTargetOrientation_writes_only s) as H.
  unfold stored_angles.
  change (fTargetThetax (resetTargetOrientation s))
    with (read m_fTargetThetax (resetTargetOrientation s)).
  change (fTargetThetay (resetTargetOrientation s))
    with (read m_fTargetThetay (resetTargetOrientation s)).
  change (fTargetThetaz (resetTargetOrientation s))
    with (read m_fTargetThetaz (resetTargetOrientation s)).
  rewrite !H by discriminate. reflexivity.
Qed.

(** The reset is idempotent. *)
Lemma resetTargetOrientation_idempotent (s : CobremsGenerator) :
  resetTargetOrientation (resetTargetOrientation s) = resetTargetOrientation s.
Proof.
  apply read_ext. intros m.
  destruct (decide (m = m_fTargetRmatrix)) as [-> | Hm].
  - cbn [read]. now rewrite !resetTargetOrientation_matrix.
  - now apply resetTargetOrientation_writes_only.
Qed.

(** * The claims *)

(** C10.  For every starting object and every argument, [setTargetThetax]
    writes only [fTargetThetax], [setTargetThetay] only [fTargetThetay],
    [setTargetThetaz] only [fTargetThetaz] -- the argument is what the
    member then holds, and in particular the rotation matrix is left as it
    was -- and [resetTargetOrientation] writes only [fTargetRmatrix], in
    particular it leaves the three angles as they were. *)
Theorem orientation_operations_frame (s : CobremsGenerator) (theta : double) :
  (fTargetThetax (setTargetThetax theta s) = theta /\
   writes_only m_fTargetThetax s (setTargetThetax theta s) /\
   fTargetRmatrix (setTargetThetax theta s) = fTargetRmatrix s) /\
  (fTargetThetay (setTargetThetay theta s) = theta /\
   writes_only m_fTargetThetay s (setTargetThetay theta s) /\
   fTargetRmatrix (setTargetThetay theta s) = fTargetRmatrix s) /\
  (fTargetThetaz (setTargetThetaz theta s) = theta /\
   writes_only m_fTargetThetaz s (setTargetThetaz theta s) /\
   fTargetRmatrix (setTargetThetaz theta s) = fTargetRmatrix s) /\
  (writes_only m_fTargetRmatrix s (resetTargetOrientation s) /\
   fTargetThetax (resetTargetOrientation s) = fTargetThetax s /\
   fTargetThetay (resetTargetOrientation s) = fTargetThetay s /\
   fTargetThetaz (resetTargetOrientation s) = fTargetThetaz s).
Proof.
  split; [ | split; [ | split ] ].
  - split; [ reflexivity | split ].
    + apply setTargetThetax_writes_only.
    + apply (setTargetThetax_writes_only theta s m_fTargetRmatrix). discriminate.
  - split; [ reflexivity | split ].
    + apply setTargetThetay_writes_only.
    + apply (setTargetThetay_writes_only theta s m_fTargetRmatrix). discriminate.
  - split; [ reflexivity | split ].
    + apply setTargetThetaz_writes_only.
    + apply (setTargetThetaz_writes_only theta s m_fTargetRmatrix). discriminate.
  - pose proof (resetTargetOrientation_writes_only s) as H.
    split; [ exact H | ].
    split; [ | split ].
    + apply (H m_fTargetThetax). discriminate.
    + apply (H m_fTargetThetay). discriminate.
    + apply (H m_fTargetThetaz). discriminate.
Qed.

(** The frames of C10 at a concrete object: after [setTargetThetax 0.25] the
    beam energy is still 12 and the matrix still a quarter turn; after the
    reset of the tilted object the angles are still 0.25, 0.5, 0.75. *)
Lemma orientation_operations_frame_example :
  fBeamEnergy (setTargetThetax 0.25 turned_config) = 12 /\
  fTargetRmatrix (setTargetThetax 0.25 turned_config) = quarter_turn /\
  stored_angles (resetTargetOrientation tilted_config) = (0.25, 0.5, 0.75).
Proof.
  destruct (orientation_operations_frame turned_config 0.25)
    as [[_ [Hframe Hmatrix]] _].
  destruct (orientation_operations_frame tilted_config 0)
    as [_ [_ [_ [_ [Hx [Hy Hz]]]]]].
  split; [ | split ].
  - apply (Hframe m_fBeamEnergy). discriminate.
  - rewrite Hmatrix. reflexivity.
  - unfold stored_angles. rewrite Hx, Hy, Hz. reflexivity.
Defined.

(** C1, as stated, fails.  The angle setters do not touch the matrix.
    Starting from an object whose matrix is a quarter turn and whose angles
    are all zero, [setTargetThetax(0)] and [resetTargetOrientation()] leave
    the same three stored angles but different matrices (the quarter turn,
    the identity), so the matrix after a call is not a function of the
    stored angles; and starting from an object whose matrix is not
    orthonormal, the matrix after [setTargetThetax(0)] is still not
    orthonormal. *)
Lemma angle_setter_does_not_regenerate_matrix :
  stored_angles (setTargetThetax 0 turned_config)
    = stored_angles (resetTargetOrientation turned_config) /\
  fTargetRmatrix (setTargetThetax 0 turned_config) = quarter_turn /\
  fTargetRmatrix (resetTargetOrientation turned_config) = identity3 /\
  matrix3_eqb quarter_turn identity3 = false /\
  fTargetRmatrix (setTargetThetax 0 turned_config)
    <> fTargetRmatrix (resetTargetOrientation turned_config) /\
  orthonormal (fTargetRmatrix (setTargetThetax 0 stretched_config)) = false.
Proof.
  assert (Hdiffer : matrix3_eqb quarter_turn identity3 = false)
    by (vm_compute; reflexivity).
  split; [ | split; [ | split; [ | split; [ | split ] ] ] ].
  - rewrite resetTargetOrientation_angles. reflexivity.
  - reflexivity.
  - apply resetTargetOrientation_matrix.
  - exact Hdiffer.
  - rewrite resetTargetOrientation_matrix.
    apply matrix3_eqb_false_neq; [ vm_compute; reflexivity | exact Hdiffer ].
  - vm_compute. reflexivity.
Qed.

(** C1, amended.  Each angle setter stores its argument in its angle member
    and leaves [fTargetRmatrix] exactly as it was before the call, so the matrix is orthonormal after the call exactly
    when it was before; [resetTargetOrientation] sets the matrix to the
    identity, which is orthonormal, whatever the stored angles are. *)
Theorem orientation_matrix_kept_by_setters_identity_after_reset
    (s : CobremsGenerator) (theta : double) :
  (fTargetThetax (setTargetThetax theta s) = theta /\
   fTargetThetay (setTargetThetay theta s) = theta /\
   fTargetThetaz (setTargetThetaz theta s) = theta) /\
  (fTargetRmatrix (setTargetThetax theta s) = fTargetRmatrix s /\
   fTargetRmatrix (setTargetThetay theta s) = fTargetRmatrix s /\
   fTargetRmatrix (setTargetThetaz theta s) = fTargetRmatrix s) /\
  (orthonormal (fTargetRmatrix (setTargetThetax theta s))
     = orthonormal (fTargetRmatrix s) /\
   orthonormal (fTargetRmatrix (setTargetThetay theta s))
     = orthonormal (fTargetRmatrix s) /\
   orthonormal (fTargetRmatrix (setTargetThetaz theta s))
     = orthonormal (fTargetRmatrix s)) /\
  fTargetRmatrix (resetTargetOrientation s) = identity3 /\
  orthonormal (fTargetRmatrix (resetTargetOrientation s)) = true.
Proof.
  assert (Hx : fTargetRmatrix (setTargetThetax theta s) = fTargetRmatrix s)
    by (apply (setTargetThetax_writes_only theta s m_fTargetRmatrix); discriminate).
  assert (Hy : fTargetRmatrix (setTargetThetay theta s) = fTargetRmatrix s)
    by (apply (setTargetThetay_writes_only theta s m_fTargetRmatrix); discriminate).
  assert (Hz : fTargetRmatrix (setTargetThetaz theta s) = fTargetRmatrix s)
    by (apply (setTargetThetaz_writes_only theta s m_fTargetRmatrix); discriminate).
  split; [ split; [ reflexivity | split; reflexivity ] | ].
  split; [ auto | ].
  split; [ rewrite Hx, Hy, Hz; auto | ].
  split; [ apply resetTargetOrientation_matrix | ].
  rewrite resetTargetOrientation_matrix. apply orthonormal_identity3.
Qed.

(** C2, as stated, fails.  On an object whose angles are 0.25, 0.5 and 0.75,
    [resetTargetOrientation()] leaves the three angles at those values: none
    of them is zero afterwards. *)
Lemma reset_does_not_zero_angles :
  stored_angles (resetTargetOrientation tilted_config) = (0.25, 0.5, 0.75) /\
  (getTargetThetax (resetTargetOrientation tilted_config) =? 0) = false /\
  (getTargetThetay (resetTargetOrientation tilted_config) =? 0) = false /\
  (getTargetThetaz (resetTargetOrientation tilted_config) =? 0) = false /\
  getTargetThetax (resetTargetOrientation tilted_config) <> 0.
Proof.
  split; [ | split; [ | split; [ | split ] ] ].
  - rewrite resetTargetOrientation_angles. reflexivity.
  - vm_compute. reflexivity.
  - vm_compute. reflexivity.
  - vm_compute. reflexivity.
  - apply eqb_false_neq; vm_compute; reflexivity.
Qed.

(** C2, amended.  After [resetTargetOrientation()] the rotation matrix is
    the 3x3 identity, and the three angle members hold the values they held
    before the call. *)
Theorem reset_gives_identity_and_keeps_angles (s : CobremsGenerator) :
  fTargetRmatrix (resetTargetOrientation s) = identity3 /\
  (forall i j, mget (fTargetRmatrix (resetTargetOrientation s)) i j = kronecker i j) /\
  getTargetThetax (resetTargetOrientation s) = getTargetThetax s /\
  getTargetThetay (resetTargetOrientation s) = getTargetThetay s /\
  getTargetThetaz (resetTargetOrientation s) = getTargetThetaz s.
Proof.
  split; [ apply resetTargetOrientation_matrix | ].
  split; [ apply resetTargetOrientation_entries | ].
  pose proof (resetTargetOrientation_writes_only s) as H.
  unfold getTargetThetax, getTargetThetay, getTargetThetaz.
  split; [ | split ].
  - apply (H m_fTargetThetax). discriminate.
  - apply (H m_fTargetThetay). discriminate.
  - apply (H m_fTargetThetaz). discriminate.
Qed.

(** ** Selecting the crystal *)

(** A supported name: the call returns and writes only the descriptor. *)
Lemma setTargetCrystal_supported (supported : gmap string crystal_parameters_t.t)
    (crystal : string) (c : crystal_parameters_t.t) (s : CobremsGenerator) :
  supported !! crystal = Some c ->
  fst (setTargetCrystal supported crystal s) = Returned tt /\
  fTargetCrystal (snd (setTargetCrystal supported crystal s)) = c /\
  writes_only m_fTargetCrystal s (snd (setTargetCrystal supported crystal s)).
Proof.
  intros Hc. unfold setTargetCrystal. rewrite Hc. cbn [fst snd].
  split; [ reflexivity | split; [ reflexivity | frame_by_cases ] ].
Qed.

(** Whether the call fails is whether the name is missing from the table. *)
Lemma setTargetCrystal_fails_iff (supported : gmap string crystal_parameters_t.t)
    (crystal : string) (s : CobremsGenerator) :
  is_failure (fst (setTargetCrystal supported crystal s)) = true
  <-> crystal ∉ dom supported.
Proof.
  rewrite not_elem_of_dom. unfold setTargetCrystal.
  destruct (supported !! crystal) as [c | ]; cbn [fst is_failure].
  - split; discriminate.
  - split; reflexivity.
Qed.

(** C5.  For every crystal name that is not in the table of supported
    crystals, [setTargetCrystal(name)] fails with [UnknownCrystal] and the
    object is afterwards what it was before: the crystal descriptor and
    every other member are unchanged. *)
Theorem setTargetCrystal_unknown (supported : gmap string crystal_parameters_t.t)
    (crystal : string) (s : CobremsGenerator) :
  supported !! crystal = None ->
  fst (setTargetCrystal supported crystal s) = Failed UnknownCrystal /\
  snd (setTargetCrystal supported crystal s) = s /\
  (forall m, read m (snd (setTargetCrystal supported crystal s)) = read m s).
Proof.
  intros Habsent. unfold setTargetCrystal. rewrite Habsent. cbn [fst snd].
  split; [ reflexivity | split; [ reflexivity | intros m; reflexivity ] ].
Qed.

(** C5 at a concrete input: "silicon" is not in a table that holds only
    "diamond". *)
Lemma setTargetCrystal_unknown_silicon :
  fst (setTargetCrystal example_table "silicon" example_config) = Failed UnknownCrystal /\
  snd (setTargetCrystal example_table "silicon" example_config) = example_config /\
  (forall m, read m (snd (setTargetCrystal example_table "silicon" example_config))
             = read m example_config).
Proof.
  apply (setTargetCrystal_unknown example_table "silicon" example_config).
  reflexivity.
Defined.

(** ** Validation of arguments *)

Lemma call_returns (body : CobremsGenerator -> CobremsGenerator) (s : CobremsGenerator) :
  fst (call body s) = Returned tt /\ snd (call body s) = body s.
Proof. split; reflexivity. Qed.

(** C6, as stated, fails for the setters.  [setTargetThickness(-1)] and
    [setBeamEnergy(-1)] return normally, and the object then holds the
    negative thickness, respectively the negative energy. *)
Lemma negative_thickness_and_energy_are_stored :
  is_failure (fst (call (setTargetThickness (-1)) example_config)) = false /\
  getTargetThickness (snd (call (setTargetThickness (-1)) example_config)) = (-1) /\
  (getTargetThickness (snd (call (setTargetThickness (-1)) example_config)) <? 0) = true /\
  is_failure (fst (call (setBeamEnergy (-1)) example_config)) = false /\
  getBeamEnergy (snd (call (setBeamEnergy (-1)) example_config)) = (-1) /\
  (getBeamEnergy (snd (call (setBeamEnergy (-1)) example_config)) <? 0) = true.
Proof.
  repeat split; vm_compute; reflexivity.
Qed.

(** C6, amended.  Construction fails with [InvalidParameter] unless both
    arguments are positive and [Epeak_GeV < Emax_GeV], and succeeds
    otherwise; the setters of the header that take a number
    ([setBeamEnergy], [setBeamErms], [setBeamEmittance],
    [setCollimatorSpotrms], [setCollimatorDistance], [setCollimatorDiameter],
    [setTargetThickness], [setTargetThetax], [setTargetThetay],
    [setTargetThetaz]) check nothing: for every argument, negative ones
    included, the call returns normally and the member holds the argument. *)
Theorem construction_checked_setters_unchecked
    (built : double -> double -> CobremsGenerator) (Emax_GeV Epeak_GeV : double) :
  ((valid_construction Emax_GeV Epeak_GeV = false ->
      construct built Emax_GeV Epeak_GeV = Failed InvalidParameter) /\
   (valid_construction Emax_GeV Epeak_GeV = true ->
      construct built Emax_GeV Epeak_GeV = Returned (built Emax_GeV Epeak_GeV))) /\
  stores_unchecked setBeamEnergy getBeamEnergy /\
  stores_unchecked setBeamErms getBeamErms /\
  stores_unchecked setBeamEmittance getBeamEmittance /\
  stores_unchecked setCollimatorSpotrms getCollimatorSpotrms /\
  stores_unchecked setCollimatorDistance getCollimatorDistance /\
  stores_unchecked setCollimatorDiameter getCollimatorDiameter /\
  stores_unchecked setTargetThickness getTargetThickness /\
  stores_unchecked setTargetThetax getTargetThetax /\
  stores_unchecked setTargetThetay getTargetThetay /\
  stores_unchecked setTargetThetaz getTargetThetaz.
Proof.
  split.
  - unfold construct.
    destruct (valid_construction Emax_GeV Epeak_GeV); split; intros H;
      first [ reflexivity | discriminate H ].
  - repeat match goal with |- _ /\ _ => split end; setter_stores.
Qed.

(** C6, amended, at concrete inputs: a coherent edge of 12 GeV on a 9 GeV
    beam is refused, one of 9 GeV on a 12 GeV beam is accepted, and a
    thickness of -1 is stored. *)
Lemma construction_checked_setters_unchecked_example :
  construct (fun _ _ => example_config) 9 12 = Failed InvalidParameter /\
  construct (fun _ _ => example_config) 12 9 = Returned example_config /\
  getTargetThickness (snd (call (setTargetThickness (-1)) example_config)) = (-1).
Proof.
  split; [ | split ].
  - apply (construction_checked_setters_unchecked (fun _ _ => example_config) 9 12).
    reflexivity.
  - apply (construction_checked_setters_unchecked (fun _ _ => example_config) 12 9).
    reflexivity.
  - destruct (construction_checked_setters_unchecked (fun _ _ => example_config) 12 9)
      as [_ (_ & _ & _ & _ & _ & _ & Hthickness & _)].
    apply Hthickness.
Defined.

(** * Sequences of inline mutator calls *)

(** ** What one call leaves in each member *)

Lemma written_other (o : operation) (m : member) :
  m <> target o -> written o m = None.
Proof. destruct o, m; intros Hm; try reflexivity; contradiction. Qed.

Lemma written_target (o : operation) : is_Some (written o (target o)).
Proof. destruct o; eexists; reflexivity. Qed.

(** After a call, a member holds what the call wrote to it, and otherwise
    what it held before. *)
Lemma perform_read (o : operation) (m : member) (s : CobremsGenerator) :
  read m (perform o s) = default (read m s) (written o m).
Proof. destruct o, m; reflexivity. Qed.

Lemma perform_all_app (ops1 ops2 : list operation) (s : CobremsGenerator) :
  perform_all (ops1 ++ ops2) s = perform_all ops2 (perform_all ops1 s).
Proof.
  revert s. induction ops1 as [ | o ops1' IH ]; intros s; [ reflexivity | ].
  cbn [app perform_all]. apply IH.
Qed.

(** The three members no operation has as its target. *)
Lemma perform_frame_crystal (o : operation) (s : CobremsGenerator) :
  fTargetCrystal (perform o s) = fTargetCrystal s.
Proof.
  change (read m_fTargetCrystal (perform o s) = read m_fTargetCrystal s).
  rewrite perform_read, written_other; [ reflexivity | destruct o; discriminate ].
Qed.

Lemma perform_frame_theta2 (o : operation) (s : CobremsGenerator) :
  fQ2theta2 (perform o s) = fQ2theta2 s.
Proof.
  change (read m_fQ2theta2 (perform o s) = read m_fQ2theta2 s).
  rewrite perform_read, written_other; [ reflexivity | destruct o; discriminate ].
Qed.

Lemma perform_frame_weight (o : operation) (s : CobremsGenerator) :
  fQ2weight (perform o s) = fQ2weight s.
Proof.
  change (read m_fQ2weight (perform o s) = read m_fQ2weight s).
  rewrite perform_read, written_other; [ reflexivity | destruct o; discriminate ].
Qed.

(** X1.  Each of the thirteen inline mutators (the twelve setters and
    [resetTargetOrientation]) assigns to one member only: every other member
    of the object reads the same after the call as before it. *)
Theorem perform_frame (o : operation) (s : CobremsGenerator) (m : member) :
  m <> target o -> read m (perform o s) = read m s.
Proof.
  intros Hm. rewrite perform_read, (written_other o m Hm). reflexivity.
Qed.

(** X1 at a concrete call: [setBeamErms] leaves the beam energy alone. *)
Lemma perform_frame_example :
  read m_fBeamEnergy (perform (SetBeamErms 0.5) example_config)
  = read m_fBeamEnergy example_config.
Proof.
  apply (perform_frame (SetBeamErms 0.5) example_config m_fBeamEnergy).
  discriminate.
Defined.

(** X2.  Two inline mutators that assign to different members commute: the
    object after the two calls is the same in either order.  This covers any
    setter with any other setter, and [resetTargetOrientation] with every
    setter, the angle setters included. *)
Theorem perform_commute (o1 o2 : operation) (s : CobremsGenerator) :
  target o1 <> target o2 ->
  perform o1 (perform o2 s) = perform o2 (perform o1 s).
Proof.
  intros Hdiff. apply read_ext. intros m. rewrite !perform_read.
  destruct (decide (m = target o1)) as [H1 | H1].
  - assert (H2 : m <> target o2) by congruence.
    rewrite (written_other o2 m H2). reflexivity.
  - rewrite (written_other o1 m H1). reflexivity.
Qed.

(** X2 at concrete calls: resetting the orientation and setting an angle. *)
Lemma perform_commute_example :
  perform ResetTargetOrientation (perform (SetTargetThetax 0.25) turned_config)
  = perform (SetTargetThetax 0.25) (perform ResetTargetOrientation turned_config).
Proof.
  apply (perform_commute ResetTargetOrientation (SetTargetThetax 0.25) turned_config).
  discriminate.
Defined.

(** X3.  Of two consecutive inline mutator calls that assign to the same
    member only the second counts: the object is what the second call alone
    would have produced.  For a setter called twice the first argument is
    lost; [resetTargetOrientation] called twice is the same as once. *)
Theorem perform_overwrites (o1 o2 : operation) (s : CobremsGenerator) :
  target o1 = target o2 ->
  perform o2 (perform o1 s) = perform o2 s.
Proof.
  intros Hsame. apply read_ext. intros m. rewrite !perform_read.
  destruct (decide (m = target o2)) as [-> | H2].
  - destruct (written_target o2) as [v Hv]. rewrite Hv. reflexivity.
  - assert (H1 : m <> target o1) by congruence.
    rewrite (written_other o1 m H1). reflexivity.
Qed.

(** X3 at concrete calls: a thickness of 1 is replaced by a thickness of 2. *)
Lemma perform_overwrites_example :
  perform (SetTargetThickness 2) (perform (SetTargetThickness 1) example_config)
  = perform (SetTargetThickness 2) example_config.
Proof.
  apply (perform_overwrites (SetTargetThickness 1) (SetTargetThickness 2) example_config).
  reflexivity.
Defined.

(** Member by member, a sequence of calls is a fold of the values written. *)
Lemma perform_all_read (m : member) (ops : list operation) (s : CobremsGenerator) :
  read m (perform_all ops s) = last_written m ops (read m s).
Proof.
  revert s. induction ops as [ | o ops' IH ]; intros s.
  - reflexivity.
  - cbn [perform_all last_written]. rewrite IH, perform_read. reflexivity.
Qed.

(** A member that no call of the sequence assigns to is left as it was. *)
Lemma perform_all_frame (m : member) (ops : list operation) (s : CobremsGenerator) :
  Forall (fun o => target o <> m) ops -> read m (perform_all ops s) = read m s.
Proof.
  intros Hops. revert s. induction Hops as [ | o ops' Ho _ IH ]; intros s.
  - reflexivity.
  - cbn [perform_all]. rewrite IH, perform_read, written_other by congruence.
    reflexivity.
Qed.

(** X4.  The last write wins.  After any sequence of inline mutator calls, a
    member holds the value written by the last call of the sequence that
    assigns to it: whatever the object was before, whatever the calls before
    that one are, and whatever calls to other members follow it. *)
Theorem perform_all_last_write (m : member) (ops1 ops2 : list operation)
    (o : operation) (v : member_type m) (s : CobremsGenerator) :
  written o m = Some v ->
  Forall (fun o' => target o' <> m) ops2 ->
  read m (perform_all (ops1 ++ o :: ops2) s) = v.
Proof.
  intros Hv Hops2.
  rewrite perform_all_app. cbn [perform_all].
  rewrite (perform_all_frame m ops2 _ Hops2), perform_read, Hv. reflexivity.
Qed.

(** X4 at a concrete sequence: the thickness set last is the one read,
    although another thickness was set first and other setters follow. *)
Lemma perform_all_last_write_example :
  getTargetThickness
    (perform_all ([SetTargetThickness 1; SetBeamEnergy 11]
                  ++ SetTargetThickness 2 :: [SetTargetThetax 0.25; ResetTargetOrientation])
       example_config)
  = 2.
Proof.
  apply (perform_all_last_write m_fTargetThickness
           [SetTargetThickness 1; SetBeamEnergy 11]
           [SetTargetThetax 0.25; ResetTargetOrientation]
           (SetTargetThickness 2) 2 example_config).
  - reflexivity.
  - repeat constructor; discriminate.
Defined.

(** X5.  No sequence of inline mutator calls changes the crystal descriptor
    or the two vectors of the lattice-sum record: none of the thirteen
    bodies assigns to them. *)
Theorem perform_all_keeps_crystal_and_record (ops : list operation) (s : CobremsGenerator) :
  fTargetCrystal (perform_all ops s) = fTargetCrystal s /\
  getTargetCrystal (perform_all ops s) = getTargetCrystal s /\
  fQ2theta2 (perform_all ops s) = fQ2theta2 s /\
  fQ2weight (perform_all ops s) = fQ2weight s.
Proof.
  assert (Hone : forall o s', fTargetCrystal (perform o s') = fTargetCrystal s' /\
                              fQ2theta2 (perform o s') = fQ2theta2 s' /\
                              fQ2weight (perform o s') = fQ2weight s').
  { intros o s'. repeat split.
    - apply (perform_frame_crystal o s').
    - apply (perform_frame_theta2 o s').
    - apply (perform_frame_weight o s'). }
  revert s. induction ops as [ | o ops' IH ]; intros s.
  - repeat split.
  - cbn [perform_all]. destruct (IH (perform o s)) as (Hc & Hn & Ht & Hw).
    destruct (Hone o s) as (Hc1 & Ht1 & Hw1).
    unfold getTargetCrystal in *.
    rewrite Hc, Ht, Hw, Hc1, Ht1, Hw1. repeat split.
Qed.

(** ** The rotation matrix under sequences of calls *)

Lemma perform_matrix (o : operation) (s : CobremsGenerator) :
  fTargetRmatrix (perform o s)
  = if is_reset o then identity3 else fTargetRmatrix s.
Proof.
  destruct o; cbn [perform is_reset];
    first [ apply resetTargetOrientation_matrix | reflexivity ].
Qed.

(** X6.  After any sequence of inline mutator calls the rotation matrix is
    the identity when the sequence contains a [resetTargetOrientation], and
    the matrix from before the sequence when it contains none: however the
    angles are set in between, the matrix does not follow them. *)
Theorem perform_all_matrix (ops : list operation) (s : CobremsGenerator) :
  fTargetRmatrix (perform_all ops s)
  = if existsb is_reset ops then identity3 else fTargetRmatrix s.
Proof.
  revert s. induction ops as [ | o ops' IH ]; intros s.
  - reflexivity.
  - cbn [perform_all existsb]. rewrite IH, perform_matrix.
    destruct (is_reset o); cbn [orb].
    + destruct (existsb is_reset ops'); reflexivity.
    + reflexivity.
Qed.

(** X7.  Orthonormality of the rotation matrix is an invariant of the inline
    mutators: if the matrix is orthonormal before a sequence of calls, it is
    orthonormal after it. *)
Theorem perform_all_orthonormal (ops : list operation) (s : CobremsGenerator) :
  orthonormal (fTargetRmatrix s) = true ->
  orthonormal (fTargetRmatrix (perform_all ops s)) = true.
Proof.
  revert s. induction ops as [ | o ops' IH ]; intros s Hs.
  - exact Hs.
  - cbn [perform_all]. apply IH. rewrite perform_matrix.
    destruct (is_reset o); [ apply orthonormal_identity3 | exact Hs ].
Qed.

(** X7 at a concrete sequence, starting from the quarter turn. *)
Lemma perform_all_orthonormal_example :
  orthonormal (fTargetRmatrix
    (perform_all [SetTargetThetax 0.25; SetBeamEnergy 11; SetTargetThetaz 0.5]
       turned_config)) = true.
Proof.
  apply (perform_all_orthonormal
           [SetTargetThetax 0.25; SetBeamEnergy 11; SetTargetThetaz 0.5] turned_config).
  vm_compute. reflexivity.
Defined.

(** * The main program *)

Section MainProperties.

Import hdgeant4.

Variable atoi : string -> Z.
Variable Find : string -> gmap Z Z -> bool * gmap Z Z.
Variable G4VIS_USE : bool.

(** ** The option loop *)

Lemma option_body_recognised (st : variables) (r : getopt_return) :
  recognised r = true -> is_Some (option_body atoi st r).
Proof.
  unfold recognised, option_body. intros Hr.
  destruct (Ascii.eqb (c r) "v"); [ eexists; reflexivity | ].
  destruct (Ascii.eqb (c r) "t"); [ eexists; reflexivity | ].
  destruct (Ascii.eqb (c r) "r"); [ eexists; reflexivity | discriminate Hr ].
Qed.

Lemma option_body_unrecognised (st : variables) (r : getopt_return) :
  recognised r = false -> option_body atoi st r = None.
Proof.
  unfold recognised, option_body. intros Hr.
  destruct (Ascii.eqb (c r) "v"); [ discriminate Hr | ].
  destruct (Ascii.eqb (c r) "t"); [ discriminate Hr | ].
  destruct (Ascii.eqb (c r) "r"); [ discriminate Hr | reflexivity ].
Qed.

(** The loop reaches [usage()] exactly when some return of [getopt] is not
    one of the three options. *)
Lemma option_loop_None (st : variables) (returns : list getopt_return) :
  option_loop atoi st returns = None <-> forallb recognised returns = false.
Proof.
  revert st. induction returns as [ | r returns' IH ]; intros st.
  - cbn. split; discriminate.
  - cbn [option_loop forallb]. destruct (recognised r) eqn:Hr.
    + destruct (option_body_recognised st r Hr) as [st' Hst']. rewrite Hst'.
      cbn [andb]. apply IH.
    + rewrite (option_body_unrecognised st r Hr). cbn [andb]. split; reflexivity.
Qed.

Lemma count_option_cons (letter : ascii) (r : getopt_return) (returns : list getopt_return) :
  count_option letter (r :: returns)
  = ((if is_option letter r then 1 else 0) + count_option letter returns)%Z.
Proof.
  unfold count_option. rewrite filter_cons.
  destruct (is_option letter r) eqn:Hr.
  - rewrite decide_True by reflexivity. cbn [length]. lia.
  - rewrite decide_False by discriminate. lia.
Qed.

Lemma count_option_nonneg (letter : ascii) (returns : list getopt_return) :
  (0 <= count_option letter returns)%Z.
Proof. unfold count_option. lia. Qed.

Lemma last_optarg_cons (letter : ascii) (r : getopt_return) (returns : list getopt_return) :
  last_optarg letter (r :: returns)
  = match last_optarg letter returns with
    | Some a => Some a
    | None => if is_option letter r then Some (optarg r) else None
    end.
Proof.
  unfold last_optarg. rewrite filter_cons.
  destruct (is_option letter r) eqn:Hr.
  - rewrite decide_True by reflexivity. rewrite last_cons.
    destruct (last (filter _ returns)); reflexivity.
  - rewrite decide_False by discriminate.
    destruct (last (filter _ returns)); reflexivity.
Qed.

Lemma existsb_is_option_count (letter : ascii) (returns : list getopt_return) :
  existsb (is_option letter) returns = (0 <? count_option letter returns)%Z.
Proof.
  induction returns as [ | r returns' IH ]; [ reflexivity | ].
  cbn [existsb]. rewrite count_option_cons, IH.
  pose proof (count_option_nonneg letter returns') as Hn.
  destruct (is_option letter r); cbn [orb].
  - symmetry. apply Z.ltb_lt. lia.
  - reflexivity.
Qed.

(** The three option letters are different characters: a return carries at
    most one of them. *)
Lemma option_body_cases (st : variables) (r : getopt_return) :
  (is_option "v" r = true /\ is_option "t" r = false /\ is_option "r" r = false /\
   option_body atoi st r
   = Some {| use_visualization := 1; worker_threads := worker_threads st;
             run_number := run_number st; argi := argi st + 1 |}) \/
  (is_option "v" r = false /\ is_option "t" r = true /\ is_option "r" r = false /\
   option_body atoi st r
   = Some {| use_visualization := use_visualization st;
             worker_threads := atoi (optarg r);
             run_number := run_number st; argi := argi st + 2 |}) \/
  (is_option "v" r = false /\ is_option "t" r = false /\ is_option "r" r = true /\
   option_body atoi st r
   = Some {| use_visualization := use_visualization st;
             worker_threads := worker_threads st;
             run_number := atoi (optarg r); argi := argi st + 2 |}) \/
  option_body atoi st r = None.
Proof.
  unfold is_option, option_body.
  destruct (Ascii.eqb (c r) "v") eqn:Hv.
  - apply Ascii.eqb_eq in Hv. rewrite Hv. left. repeat split.
  - destruct (Ascii.eqb (c r) "t") eqn:Ht.
    + apply Ascii.eqb_eq in Ht. rewrite Ht. right. left. repeat split.
    + destruct (Ascii.eqb (c r) "r") eqn:Hr.
      * right. right. left. repeat split.
      * right. right. right. reflexivity.
Qed.

(** The loop from any starting values. *)
Lemma option_loop_from (st0 st : variables) (returns : list getopt_return) :
  option_loop atoi st0 returns = Some st ->
  use_visualization st
    = (if existsb (is_option "v") returns then 1 else use_visualization st0)%Z /\
  worker_threads st = default (worker_threads st0) (atoi <$> last_optarg "t" returns) /\
  run_number st = default (run_number st0) (atoi <$> last_optarg "r" returns) /\
  argi st = (argi st0 + count_option "v" returns
             + 2 * (count_option "t" returns + count_option "r" returns))%Z.
Proof.
  revert st0. induction returns as [ | r returns' IH ]; intros st0 Hloop.
  - cbn in Hloop. injection Hloop as <-.
    split; [ reflexivity | split; [ reflexivity | split; [ reflexivity | ] ] ].
    change (count_option "v" []) with 0%Z.
    change (count_option "t" []) with 0%Z.
    change (count_option "r" []) with 0%Z. lia.
  - cbn [option_loop] in Hloop.
    rewrite !count_option_cons, !last_optarg_cons. cbn [existsb].
    destruct (option_body_cases st0 r)
      as [(Hv & Ht & Hr & Hb) | [(Hv & Ht & Hr & Hb) | [(Hv & Ht & Hr & Hb) | Hb]]];
      rewrite Hb in Hloop; [ | | | discriminate Hloop ];
      destruct (IH _ Hloop) as (IHv & IHt & IHr & IHi);
      rewrite Hv, Ht, Hr; cbn [orb use_visualization worker_threads run_number argi] in *;
      (split; [ | split; [ | split ] ]).
    + rewrite IHv. destruct (existsb (is_option "v") returns'); reflexivity.
    + rewrite IHt. destruct (last_optarg "t" returns'); reflexivity.
    + rewrite IHr. destruct (last_optarg "r" returns'); reflexivity.
    + lia.
    + exact IHv.
    + rewrite IHt. destruct (last_optarg "t" returns'); reflexivity.
    + rewrite IHr. destruct (last_optarg "r" returns'); reflexivity.
    + lia.
    + exact IHv.
    + rewrite IHt. destruct (last_optarg "t" returns'); reflexivity.
    + rewrite IHr. destruct (last_optarg "r" returns'); reflexivity.
    + lia.
Qed.

End MainProperties.

Section MainTheorems.

Import hdgeant4.

Variable atoi : string -> Z.
Variable Find : string -> gmap Z Z -> bool * gmap Z Z.
Variable G4VIS_USE : bool.

(** [main] in terms of the list of returns of [getopt]. *)
Lemma main_by_cases (returns : list getopt_return) (control_in_read : bool)
    (argv : list string) :
  main atoi Find G4VIS_USE returns control_in_read argv
  = if negb (forallb recognised returns) then Exited 9
    else if negb control_in_read then Exited 3
    else if existsb (is_option "v") returns && negb G4VIS_USE then Exited 1
    else Finished
           (choose_run_number Find (default 0%Z (atoi <$> last_optarg "r" returns)))
           (default 1%Z (atoi <$> last_optarg "t" returns))
           (start_ui argv (batch_index returns) (existsb (is_option "v") returns)).
Proof.
  unfold main. destruct (option_loop atoi at_entry returns) as [st | ] eqn:Hloop.
  - assert (Hall : forallb recognised returns = true).
    { destruct (forallb recognised returns) eqn:Hall; [ reflexivity | ].
      apply (option_loop_None atoi at_entry) in Hall. congruence. }
    rewrite Hall. cbn [negb].
    destruct (option_loop_from atoi at_entry st returns Hloop) as (Hv & Ht & Hr & Hi).
    cbn [use_visualization worker_threads run_number argi at_entry] in Hv, Ht, Hr, Hi.
    destruct control_in_read; cbn [negb]; [ | reflexivity ].
    unfold batch_index. rewrite Hv, Ht, Hr, Hi.
    destruct (existsb (is_option "v") returns); cbn [andb Z.eqb].
    + destruct G4VIS_USE; reflexivity.
    + reflexivity.
  - apply (option_loop_None atoi at_entry) in Hloop. rewrite Hloop. reflexivity.
Qed.

(** X8.  The option loop, run from the initial values, either reaches
    [usage()] or ends with: [use_visualization] 1 if [-v] occurred and 0 if
    not; [worker_threads] the [atoi] of the argument of the last [-t], and 1
    if there is none; [run_number] the [atoi] of the argument of the last
    [-r], and 0 if there is none; [argi] equal to 1, plus 1 for each [-v],
    plus 2 for each [-t] and each [-r]. *)
Theorem option_loop_values (returns : list getopt_return) (st : variables) :
  option_loop atoi at_entry returns = Some st ->
  use_visualization st = (if existsb (is_option "v") returns then 1 else 0)%Z /\
  worker_threads st = default 1%Z (atoi <$> last_optarg "t" returns) /\
  run_number st = default 0%Z (atoi <$> last_optarg "r" returns) /\
  argi st = batch_index returns.
Proof.
  intros Hloop.
  destruct (option_loop_from atoi at_entry st returns Hloop) as (Hv & Ht & Hr & Hi).
  cbn [use_visualization worker_threads run_number argi at_entry] in Hv, Ht, Hr, Hi.
  unfold batch_index. repeat split; assumption.
Qed.

(** X9.  [main] ends by [exit] with one of three statuses, decided in this
    order: 9 exactly when [getopt] returns something other than [v], [t] or
    [r]; else 3 exactly when [control.in] could not be read; else 1 exactly
    when [-v] was given and the program was built without [G4VIS_USE]. *)
Theorem main_exit_status (returns : list getopt_return) (control_in_read : bool)
    (argv : list string) :
  (main atoi Find G4VIS_USE returns control_in_read argv = Exited 9
   <-> forallb recognised returns = false) /\
  (main atoi Find G4VIS_USE returns control_in_read argv = Exited 3
   <-> forallb recognised returns = true /\ control_in_read = false) /\
  (main atoi Find G4VIS_USE returns control_in_read argv = Exited 1
   <-> forallb recognised returns = true /\ control_in_read = true /\
       existsb (is_option "v") returns = true /\ G4VIS_USE = false) /\
  (forall status : Z,
     main atoi Find G4VIS_USE returns control_in_read argv = Exited status ->
     status = 9%Z \/ status = 3%Z \/ status = 1%Z).
Proof.
  rewrite main_by_cases.
  destruct (forallb recognised returns), control_in_read,
    (existsb (is_option "v") returns), G4VIS_USE; cbn [negb andb];
    (split; [ | split; [ | split ] ]);
    try (intros status H; injection H as <-; auto);
    intuition (try discriminate; try congruence).
Qed.

(** X10.  The run number [main] runs with, when it runs to its end.  If the
    argument of the last [-r] converts to a non-zero number, the run number
    is 9000, whatever that number is.  If there is no [-r], or its argument
    converts to 0, the run number is the entry under key 1 of [RUNNO] in
    [control.in], else of [RUNG], and is 0 when neither is found. *)
Theorem main_run_number (returns : list getopt_return) (control_in_read : bool)
    (argv : list string) (run threads : Z) (ui : session) :
  main atoi Find G4VIS_USE returns control_in_read argv = Finished run threads ui ->
  (default 0%Z (atoi <$> last_optarg "r" returns) <> 0%Z -> run = 9000%Z) /\
  (default 0%Z (atoi <$> last_optarg "r" returns) = 0%Z ->
   run = (if fst (Find "RUNNO" ∅) then at_key_1 (snd (Find "RUNNO" ∅))
          else if fst (Find "RUNG" (snd (Find "RUNNO" ∅)))
               then at_key_1 (snd (Find "RUNG" (snd (Find "RUNNO" ∅))))
               else 0%Z)).
Proof.
  rewrite main_by_cases. intros Hmain.
  destruct (negb (forallb recognised returns)); [ discriminate Hmain | ].
  destruct (negb control_in_read); [ discriminate Hmain | ].
  destruct (existsb (is_option "v") returns && negb G4VIS_USE); [ discriminate Hmain | ].
  injection Hmain as Hrun _ _. subst run. unfold choose_run_number.
  split; intros Hr.
  - apply Z.eqb_neq in Hr. rewrite Hr. reflexivity.
  - rewrite Hr. cbn [Z.eqb].
    destruct (Find "RUNNO" ∅) as [found_RUNNO m1]. cbn [fst snd].
    destruct found_RUNNO; [ reflexivity | ].
    destruct (Find "RUNG" m1) as [found_RUNG m2]. cbn [fst snd].
    destruct found_RUNG; reflexivity.
Qed.

(** X11.  When [main] runs to its end, the user interface depends on
    [argc] and on the options only through their count.  With [k] equal to
    1, plus 1 for each [-v], plus 2 for each [-t] and each [-r]: if
    [argc > k] the program runs in batch mode on [argv[k]], with or without
    [-v]; otherwise it is interactive, with visualization exactly when [-v]
    was given. *)
Theorem main_user_interface (returns : list getopt_return) (control_in_read : bool)
    (argv : list string) (run threads : Z) (ui : session) :
  main atoi Find G4VIS_USE returns control_in_read argv = Finished run threads ui ->
  ((batch_index returns < Z.of_nat (length argv))%Z ->
   exists fileName, argv !! Z.to_nat (batch_index returns) = Some fileName /\
                    ui = Batch fileName) /\
  ((Z.of_nat (length argv) <= batch_index returns)%Z ->
   ui = if existsb (is_option "v") returns
        then InteractiveWithVisualization else InteractiveWithoutVisualization).
Proof.
  rewrite main_by_cases. intros Hmain.
  destruct (negb (forallb recognised returns)); [ discriminate Hmain | ].
  destruct (negb control_in_read); [ discriminate Hmain | ].
  destruct (existsb (is_option "v") returns && negb G4VIS_USE); [ discriminate Hmain | ].
  injection Hmain as _ _ Hui. subst ui. unfold start_ui.
  assert (Hk : (1 <= batch_index returns)%Z).
  { unfold batch_index.
    pose proof (count_option_nonneg "v" returns).
    pose proof (count_option_nonneg "t" returns).
    pose proof (count_option_nonneg "r" returns). lia. }
  split; intros Hargc.
  - assert (Hgt : (Z.of_nat (length argv) >? batch_index returns)%Z = true)
      by (apply Z.gtb_lt; lia).
    rewrite Hgt.
    destruct (lookup_lt_is_Some_2 argv (Z.to_nat (batch_index returns)))
      as [fileName Hfile]; [ lia | ].
    exists fileName. rewrite Hfile. split; reflexivity.
  - assert (Hle : (Z.of_nat (length argv) >? batch_index returns)%Z = false).
    { destruct (Z.of_nat (length argv) >? batch_index returns)%Z eqn:E;
        [ apply Z.gtb_lt in E; lia | reflexivity ]. }
    rewrite Hle. reflexivity.
Qed.

End MainTheorems.

(** ** The main program on two command lines *)

(** X8 on [hdgeant4 -v -r 42 -t 4 run.mac]: visualization on, 4 threads,
    run number 42 so far, batch file at position 6. *)
Lemma option_loop_values_example :
  hdgeant4.use_visualization
    {| hdgeant4.use_visualization := 1; hdgeant4.worker_threads := 4;
       hdgeant4.run_number := 42; hdgeant4.argi := 6 |}
  = (if existsb (hdgeant4.is_option "v") hdgeant4.example_returns then 1 else 0)%Z /\
  hdgeant4.worker_threads
    {| hdgeant4.use_visualization := 1; hdgeant4.worker_threads := 4;
       hdgeant4.run_number := 42; hdgeant4.argi := 6 |}
  = default 1%Z (hdgeant4.example_atoi
                   <$> hdgeant4.last_optarg "t" hdgeant4.example_returns) /\
  hdgeant4.run_number
    {| hdgeant4.use_visualization := 1; hdgeant4.worker_threads := 4;
       hdgeant4.run_number := 42; hdgeant4.argi := 6 |}
  = default 0%Z (hdgeant4.example_atoi
                   <$> hdgeant4.last_optarg "r" hdgeant4.example_returns) /\
  hdgeant4.argi
    {| hdgeant4.use_visualization := 1; hdgeant4.worker_threads := 4;
       hdgeant4.run_number := 42; hdgeant4.argi := 6 |}
  = hdgeant4.batch_index hdgeant4.example_returns.
Proof.
  apply (option_loop_values hdgeant4.example_atoi hdgeant4.example_returns).
  vm_compute. reflexivity.
Defined.

(** X10 on the same command line, [control.in] holding [RUNNO 30000]: the
    run is made with run number 9000, not 42 and not 30000. *)
Lemma main_run_number_example :
  hdgeant4.main hdgeant4.example_atoi hdgeant4.example_Find true
    hdgeant4.example_returns true hdgeant4.example_argv
  = hdgeant4.Finished 9000 4 (hdgeant4.Batch "run.mac") /\
  (default 0%Z (hdgeant4.example_atoi
                  <$> hdgeant4.last_optarg "r" hdgeant4.example_returns) <> 0%Z ->
   9000%Z = 9000%Z).
Proof.
  assert (Hmain : hdgeant4.main hdgeant4.example_atoi hdgeant4.example_Find true
                    hdgeant4.example_returns true hdgeant4.example_argv
                  = hdgeant4.Finished 9000 4 (hdgeant4.Batch "run.mac"))
    by (vm_compute; reflexivity).
  split; [ exact Hmain | ].
  apply (main_run_number hdgeant4.example_atoi hdgeant4.example_Find true
           hdgeant4.example_returns true hdgeant4.example_argv
           9000 4 (hdgeant4.Batch "run.mac") Hmain).
Defined.

(** X11 on [hdgeant4 -t 2]: nothing follows the options, so the session is
    interactive, without visualization. *)
Lemma main_user_interface_example :
  hdgeant4.main hdgeant4.example_atoi hdgeant4.example_Find true
    hdgeant4.example_returns_t true hdgeant4.example_argv_t
  = hdgeant4.Finished 30000 2 hdgeant4.InteractiveWithoutVisualization /\
  ((Z.of_nat (length hdgeant4.example_argv_t)
    <= hdgeant4.batch_index hdgeant4.example_returns_t)%Z ->
   hdgeant4.InteractiveWithoutVisualization
   = if existsb (hdgeant4.is_option "v") hdgeant4.example_returns_t
     then hdgeant4.InteractiveWithVisualization
     else hdgeant4.InteractiveWithoutVisualization).
Proof.
  assert (Hmain : hdgeant4.main hdgeant4.example_atoi hdgeant4.example_Find true
                    hdgeant4.example_returns_t true hdgeant4.example_argv_t
                  = hdgeant4.Finished 30000 2 hdgeant4.InteractiveWithoutVisualization)
    by (vm_compute; reflexivity).
  split; [ exact Hmain | ].
  apply (main_user_interface hdgeant4.example_atoi hdgeant4.example_Find true
           hdgeant4.example_returns_t true hdgeant4.example_argv_t
           30000 2 hdgeant4.InteractiveWithoutVisualization Hmain).
Defined.
